(** * The loop-agent stop gate ([.claude-plugin/hooks/loop-stop-gate.py])

    A shallow embedding of the hook and the properties its specification
    states about it.

    The hook is one short Python script.  It reads a JSON payload from
    standard input, looks at three environment variables, may run
    [git status --porcelain] once, and either ends silently or prints one
    JSON object asking the agent to commit its work.

    Modelling decisions:
    - a Python [str] is a [string]; a character stands for the code point
      with the same number (0..255);
    - [os.environ] is a finite map from names to values;
    - what the script cannot decide on its own (the standard input, the
      working directory, what the child process does) is a field of
      [World];
    - [json.load] and [subprocess.run] are library calls and are modelled by
      their outcomes: for the first a decoded value, [JSONDecodeError], or
      one of the exceptions it raises on input it cannot read
      ([RecursionError], [ValueError], [UnicodeDecodeError]); for the second
      a completed process, [TimeoutExpired], an [OSError], or
      [UnicodeDecodeError] on output that is not text;
    - exceptions, [sys.exit], the text printed and the child processes
      started are threaded through the monad [M]. *)

From Stdlib Require Import ZArith NArith String Ascii List Bool Lia.
From Stdlib Require Import Floats.SpecFloat.
From stdpp Require Import base option gmap strings pretty.

Set Warnings "-register-all".
Local Open Scope string_scope.
Local Open Scope Z_scope.

(** ** Python values *)

Module Py.

(** The values [json.load] can return. *)
Inductive pyval :=
| PyNone
| PyBool (b : bool)
| PyInt (n : Z)
| PyFloat (f : spec_float)
| PyStr (s : string)
| PyList (l : list pyval)
| PyDict (d : gmap string pyval).

(** [bool(s)] for a [str]. *)
Definition str_truthy (s : string) : bool :=
  match s with
  | EmptyString => false
  | String _ _ => true
  end.

(** [bool(v)]: the truth value Python gives [v] in an [if]. *)
Definition truthy (v : pyval) : bool :=
  match v with
  | PyNone => false
  | PyBool b => b
  | PyInt n => negb (n =? 0)
  | PyFloat f => match f with S754_zero _ => false | _ => true end
  | PyStr s => str_truthy s
  | PyList l => match l with [] => false | _ :: _ => true end
  | PyDict d => negb (bool_decide (d = ∅))
  end.

(** [type(v).__name__]. *)
Definition type_name (v : pyval) : string :=
  match v with
  | PyNone => "NoneType"
  | PyBool _ => "bool"
  | PyInt _ => "int"
  | PyFloat _ => "float"
  | PyStr _ => "str"
  | PyList _ => "list"
  | PyDict _ => "dict"
  end.

(** Characters that cannot be written inside a string literal. *)
Definition nl : ascii := "010"%char.
Definition dquote : ascii := "034"%char.
Definition squote : ascii := "'"%char.
Definition backslash : ascii := "\"%char.

(** [c.isspace()] for a code point below 256. *)
Definition isspace (c : ascii) : bool :=
  let n := N_of_ascii c in
  ((9 <=? n) && (n <=? 13) || (28 <=? n) && (n <=? 32)
   || (n =? 133) || (n =? 160))%N.

Fixpoint lstrip (s : string) : string :=
  match s with
  | EmptyString => EmptyString
  | String c s' => if isspace c then lstrip s' else s
  end.

Fixpoint rstrip (s : string) : string :=
  match s with
  | EmptyString => EmptyString
  | String c s' =>
      match rstrip s' with
      | EmptyString => if isspace c then EmptyString else String c EmptyString
      | t => String c t
      end
  end.

(** [s.strip()]. *)
Definition strip (s : string) : string := rstrip (lstrip s).

(** Every character of [s] is white space. *)
Fixpoint isblank (s : string) : bool :=
  match s with
  | EmptyString => true
  | String c s' => isspace c && isblank s'
  end.

Definition hex_digit (n : N) : ascii :=
  if (n <? 10)%N then ascii_of_N (48 + n) else ascii_of_N (87 + n).

(** Two lower-case hexadecimal digits of a code point below 256. *)
Definition hex2 (c : ascii) : string :=
  let n := N_of_ascii c in
  String (hex_digit (n / 16)) (String (hex_digit (n mod 16)) EmptyString).

(** [c.isprintable()] for a code point below 256. *)
Definition isprintable (c : ascii) : bool :=
  let n := N_of_ascii c in
  ((32 <=? n) && (n <=? 126) || (161 <=? n) && negb (n =? 173))%N.

Fixpoint has_char (c : ascii) (s : string) : bool :=
  match s with
  | EmptyString => false
  | String c' s' => Ascii.eqb c c' || has_char c s'
  end.

Fixpoint repr_body (q : ascii) (s : string) : string :=
  match s with
  | EmptyString => EmptyString
  | String c s' =>
      (if Ascii.eqb c backslash || Ascii.eqb c q then String backslash (String c EmptyString)
       else if Ascii.eqb c "009"%char then "\t"
       else if Ascii.eqb c nl then "\n"
       else if Ascii.eqb c "013"%char then "\r"
       else if isprintable c then String c EmptyString
       else "\x" +:+ hex2 c)
      +:+ repr_body q s'
  end.

(** [repr(s)] for a [str]: single quotes, unless the text has a single
    quote and no double quote. *)
Definition repr_str (s : string) : string :=
  let q := if has_char squote s && negb (has_char dquote s) then dquote else squote in
  String q (repr_body q s +:+ String q EmptyString).

(** [repr(l)], also [str(l)], for a list of [str]. *)
Definition repr_list (l : list string) : string :=
  "[" +:+ String.concat ", " (map repr_str l) +:+ "]".

(** The text of the lines of a triple-quoted literal whose every line,
    the last included, ends in a newline. *)
Fixpoint text (lines : list string) : string :=
  match lines with
  | [] => EmptyString
  | l :: rest => l +:+ String nl (text rest)
  end.

End Py.

(** ** [json.dumps] on a dictionary of strings *)

Module Json.

Import Py.

(** [json.encoder.py_encode_basestring_ascii] on one character. *)
Definition escape_char (c : ascii) : string :=
  let n := N_of_ascii c in
  if Ascii.eqb c dquote then String backslash (String dquote EmptyString)
  else if Ascii.eqb c backslash then "\\"
  else if (n =? 10)%N then "\n"
  else if (n =? 13)%N then "\r"
  else if (n =? 9)%N then "\t"
  else if (n =? 8)%N then "\b"
  else if (n =? 12)%N then "\f"
  else if ((32 <=? n) && (n <=? 126))%N then String c EmptyString
  else "\u00" +:+ hex2 c.

Fixpoint escape (s : string) : string :=
  match s with
  | EmptyString => EmptyString
  | String c s' => escape_char c +:+ escape s'
  end.

Definition encode_str (s : string) : string :=
  String dquote (escape s +:+ String dquote EmptyString).

(** [json.dumps(d)] for a [dict] whose keys and values are [str], with the
    default separators and [ensure_ascii]; items in insertion order. *)
Definition dumps (d : list (string * string)) : string :=
  "{" +:+ String.concat ", "
            (map (fun kv => encode_str kv.1 +:+ ": " +:+ encode_str kv.2) d)
      +:+ "}".

End Json.

(** ** Exceptions, the world outside the script, and the effect monad *)

Inductive oserror_class :=
| FileNotFoundError
| PermissionError
| NotADirectoryError
| OtherOSError.

(** The attributes of an [OSError] raised by the operating system. *)
Record os_error := {
  os_class : oserror_class;
  os_errno : Z;
  os_strerror : string;
  os_filename : option string
}.

Inductive exn :=
| JSONDecodeError (msg : string)
| TimeoutExpired (cmd : list string) (timeout : Z)
| OSError (e : os_error)
| AttributeError (msg : string)
| RecursionError (msg : string)
| ValueError (msg : string)
| UnicodeDecodeError (msg : string)
| OtherException (cls : string) (msg : string).

(** [str(e)]. *)
Definition str_exn (e : exn) : string :=
  match e with
  | JSONDecodeError msg => msg
  | TimeoutExpired cmd timeout =>
      "Command '" +:+ Py.repr_list cmd +:+ "' timed out after "
      +:+ pretty timeout +:+ " seconds"
  | OSError o =>
      "[Errno " +:+ pretty (os_errno o) +:+ "] " +:+ os_strerror o
      +:+ match os_filename o with
          | Some f => ": " +:+ Py.repr_str f
          | None => EmptyString
          end
  | AttributeError msg => msg
  | RecursionError msg => msg
  | ValueError msg => msg
  | UnicodeDecodeError msg => msg
  | OtherException _ msg => msg
  end.

(** Input on which [json.load(sys.stdin)] raises an exception that is not
    a [JSONDecodeError]: arrays or objects nested deeper than the
    interpreter recurses, closed or not ([RecursionError]); an integer of
    more digits than the interpreter converts ([ValueError]); bytes that
    are not text in the encoding of [sys.stdin] ([UnicodeDecodeError]);
    or anything else that makes it raise an exception of a class the
    script does not name, such as [MemoryError].  Each carries the message
    of its exception. *)
Inductive load_failure :=
| TooDeep (msg : string)
| TooManyDigits (msg : string)
| NotText (msg : string)
| OtherLoadError (cls : string) (msg : string).

Definition load_exn (f : load_failure) : exn :=
  match f with
  | TooDeep msg => RecursionError msg
  | TooManyDigits msg => ValueError msg
  | NotText msg => UnicodeDecodeError msg
  | OtherLoadError cls msg => OtherException cls msg
  end.

(** What is on standard input: a JSON document, given by the value it
    decodes to; text that [json.load] rejects with [JSONDecodeError]; or
    input it fails on in another way. *)
Inductive stdin_payload :=
| JSONDocument (v : Py.pyval)
| Malformed (msg : string)
| Unreadable (f : load_failure).

(** How a child process started by [subprocess.run] ends.  In
    [Completed], [stdout] is [result.stdout]: what the child wrote, as
    [text=True] hands it over, decoded and with CR LF and CR read as LF.
    [OutputNotText] is a child whose output cannot be decoded
    ([UnicodeDecodeError]); [RunRaised] is [subprocess.run] raising an
    exception of another class that the script does not name. *)
Inductive run_outcome :=
| Completed (returncode : Z) (stdout : string)
| TimedOut
| SpawnFailed (e : os_error)
| OutputNotText (msg : string)
| RunRaised (cls : string) (msg : string).

Record World := {
  environ : gmap string string;
  stdin : stdin_payload;
  getcwd : os_error + string;
  spawn : list string -> Z -> string -> run_outcome
}.

(** One call of [subprocess.run]. *)
Record Call := {
  call_cmd : list string;
  call_timeout : Z;
  call_cwd : string
}.

(** What the script has done so far. *)
Record Effects := {
  printed : string;
  calls : list Call
}.

Definition no_effects : Effects := {| printed := EmptyString; calls := [] |}.

(** What ends a computation other than a value. *)
Inductive Signal :=
| SystemExit (code : Z)
| Raised (e : exn).

Definition M (A : Type) : Type := Effects -> (Signal + A) * Effects.

#[export] Instance M_ret : MRet M := fun A a s => (inr a, s).

#[export] Instance M_bind : MBind M := fun A B f m s =>
  match m s with
  | (inr a, s') => f a s'
  | (inl sig, s') => (inl sig, s')
  end.

Definition raise {A} (e : exn) : M A := fun s => (inl (Raised e), s).

(** [sys.exit(code)]. *)
Definition sys_exit {A} (code : Z) : M A := fun s => (inl (SystemExit code), s).

(** [try: body / except <classes>: ...]: [handler e] is the handler's body
    when [e] is of one of the classes, [None] when it is not.  [SystemExit]
    is not an [Exception] the script names, so it passes through. *)
Definition try_except {A} (body : M A) (handler : exn -> option (M A)) : M A :=
  fun s =>
    match body s with
    | (inl (Raised e), s') =>
        match handler e with
        | Some h => h s'
        | None => (inl (Raised e), s')
        end
    | r => r
    end.

(** [print(line)]. *)
Definition print (line : string) : M unit := fun s =>
  (inr tt, {| printed := printed s +:+ line +:+ String Py.nl EmptyString;
              calls := calls s |}).

(** [json.load(sys.stdin)]. *)
Definition json_load (w : World) : M Py.pyval :=
  match stdin w with
  | JSONDocument v => mret v
  | Malformed msg => raise (JSONDecodeError msg)
  | Unreadable f => raise (load_exn f)
  end.

(** [os.getcwd()]. *)
Definition os_getcwd (w : World) : M string :=
  match getcwd w with
  | inr d => mret d
  | inl e => raise (OSError e)
  end.

(** The effects once one more child process has been started. *)
Definition record_call (s : Effects) (cmd : list string) (timeout : Z)
    (cwd : string) : Effects :=
  {| printed := printed s;
     calls := calls s ++ [{| call_cmd := cmd; call_timeout := timeout;
                             call_cwd := cwd |}] |}.

(** [subprocess.run(cmd, capture_output=True, text=True, timeout=timeout,
    cwd=cwd)]: the call is recorded, then the child's fate decides; the
    pair returned is [(result.returncode, result.stdout)]. *)
Definition subprocess_run (w : World) (cmd : list string) (timeout : Z)
    (cwd : string) : M (Z * string) := fun s =>
  let s' := record_call s cmd timeout cwd in
  match spawn w cmd timeout cwd with
  | Completed rc out => (inr (rc, out), s')
  | TimedOut => (inl (Raised (TimeoutExpired cmd timeout)), s')
  | SpawnFailed e => (inl (Raised (OSError e)), s')
  | OutputNotText msg => (inl (Raised (UnicodeDecodeError msg)), s')
  | RunRaised cls msg => (inl (Raised (OtherException cls msg)), s')
  end.

(** [v.get(key, default)]: only a [dict] has the method. *)
Definition get_method (v : Py.pyval) (key : string) (dflt : Py.pyval) : M Py.pyval :=
  match v with
  | Py.PyDict d => mret (default dflt (d !! key))
  | _ => raise (AttributeError ("'" +:+ Py.type_name v +:+ "' object has no attribute 'get'"))
  end.

(** ** The script *)

Definition get_env (w : World) (name : string) (dflt : string) : string :=
  default dflt (environ w !! name).

Definition run_command (w : World) (cmd : list string) (timeout : Z) : M (bool * string) :=
  try_except
    (cwd ← os_getcwd w;
     result ← subprocess_run w cmd timeout (get_env w "CLAUDE_PROJECT_DIR" cwd);
     mret (result.1 =? 0, Py.strip result.2))
    (fun e =>
       match e with
       | TimeoutExpired _ _ => Some (mret (false, str_exn e))
       | OSError o =>
           match os_class o with
           | FileNotFoundError => Some (mret (false, str_exn e))
           | _ => None
           end
       | _ => None
       end).

(** The f-string of [main]. *)
Definition prompt (git_status session_name : string) : string :=
  Py.text
    [ "## Loop Agent - Uncommitted Changes Detected";
      EmptyString;
      "You have uncommitted changes:";
      "```";
      git_status;
      "```";
      EmptyString;
      "Before stopping, ensure:";
      EmptyString;
      "1. **Tests pass** - If this project has a test suite, run it now";
      "2. **Commit everything** - Including any updates to the progress file";
      EmptyString;
      "**Progress file:** Always APPEND to `.claude/loop-progress/progress-"
        +:+ session_name +:+ ".txt` (never overwrite).";
      EmptyString;
      "Once tests pass and all changes are committed, you may stop." ].

Definition git_status_cmd : list string := ["git"; "status"; "--porcelain"].

(** [if cond: stmt]. *)
Definition when (cond : bool) (stmt : M unit) : M unit :=
  if cond then stmt else mret tt.

Definition main (w : World) : M unit :=
  input_data ←
    try_except (json_load w)
      (fun e => match e with
                | JSONDecodeError _ => Some (sys_exit 0)
                | _ => None
                end);
  when (negb (Py.str_truthy (get_env w "CLAUDE_PIPELINE_AGENT" EmptyString))) (sys_exit 0);;
  active ← get_method input_data "stop_hook_active" (Py.PyBool false);
  when (Py.truthy active) (sys_exit 0);;
  let session_name := get_env w "CLAUDE_PIPELINE_SESSION" "default" in
  '(_, git_status) ← run_command w git_status_cmd 10;
  when (negb (Py.str_truthy git_status)) (sys_exit 0);;
  let output := [("decision", "block"); ("reason", prompt git_status session_name)] in
  print (Json.dumps output);;
  sys_exit 0.

(** ** The process as the host sees it *)

Record Process := {
  exit_code : Z;
  output : string;
  traceback : option exn;
  queries : list Call
}.

(** [if __name__ == "__main__": main()]: the interpreter exits with the code
    of [SystemExit], with 0 when [main] returns, and with 1 and a traceback
    when an exception reaches the top. *)
Definition run (w : World) : Process :=
  match main w no_effects with
  | (inr _, s) =>
      {| exit_code := 0; output := printed s; traceback := None; queries := calls s |}
  | (inl (SystemExit c), s) =>
      {| exit_code := c; output := printed s; traceback := None; queries := calls s |}
  | (inl (Raised e), s) =>
      {| exit_code := 1; output := printed s; traceback := Some e; queries := calls s |}
  end.

(** ** Vocabulary of the specification *)

(** The activation filter: the test [main] makes on the agent-mode flag. *)
Definition activation (w : World) : bool :=
  Py.str_truthy (get_env w "CLAUDE_PIPELINE_AGENT" EmptyString).

(** The re-entrancy guard: the test [main] makes on a payload object. *)
Definition stop_hook_active (d : gmap string Py.pyval) : bool :=
  Py.truthy (default (Py.PyBool false) (d !! "stop_hook_active")).

Definition session_name (w : World) : string :=
  get_env w "CLAUDE_PIPELINE_SESSION" "default".

(** The repository status: what [run_command] gives [main], a success flag
    and the status text, or the exception it lets through. *)
Definition status_query (w : World) : Signal + bool * string :=
  (run_command w git_status_cmd 10 no_effects).1.

(** ALLOW: exit status 0, nothing printed, no traceback. *)
Definition allows (p : Process) : Prop :=
  exit_code p = 0 /\ output p = EmptyString /\ traceback p = None.

(** The payload of BLOCK. *)
Definition block_payload (reason : string) : list (string * string) :=
  [("decision", "block"); ("reason", reason)].

(** BLOCK: exit status 0 and one line printed, the JSON text of a payload
    with the decision tag [block] and the given reason. *)
Definition blocks (p : Process) (reason : string) : Prop :=
  exit_code p = 0 /\ traceback p = None /\
  output p = Json.dumps (block_payload reason) +:+ String Py.nl EmptyString.

(** [needle in hay]. *)
Definition contains (needle hay : string) : Prop :=
  exists pre post, hay = pre +:+ needle +:+ post.

(** The process that ends silently with status 0. *)
Definition silent (qs : list Call) : Process :=
  {| exit_code := 0; output := EmptyString; traceback := None; queries := qs |}.

(** The process that dies of an uncaught exception. *)
Definition crashed (e : exn) (qs : list Call) : Process :=
  {| exit_code := 1; output := EmptyString; traceback := Some e; queries := qs |}.

(** Worlds used as examples: the variables set, the payload, the directory
    the hook runs in, and what becomes of the child process. *)
Definition world (env : gmap string string) (payload : stdin_payload)
    (child : run_outcome) : World :=
  {| environ := env; stdin := payload; getcwd := inr "/repo";
     spawn := fun _ _ _ => child |}.

Definition agent_env : gmap string string :=
  {[ "CLAUDE_PIPELINE_AGENT" := "1" ]}.

Definition alpha_env : gmap string string :=
  <[ "CLAUDE_PIPELINE_SESSION" := "alpha" ]> agent_env.

Definition empty_object : stdin_payload := JSONDocument (Py.PyDict ∅).

Definition git_missing : os_error :=
  {| os_class := FileNotFoundError; os_errno := 2;
     os_strerror := "No such file or directory"; os_filename := Some "git" |}.

(** ** Further vocabulary *)

(** The world [w] with another payload on standard input. *)
Definition with_stdin (w : World) (payload : stdin_payload) : World :=
  {| environ := environ w; stdin := payload; getcwd := getcwd w; spawn := spawn w |}.

(** The one child process the script ever starts, run in [cwd]. *)
Definition git_call (cwd : string) : Call :=
  {| call_cmd := git_status_cmd; call_timeout := 10; call_cwd := cwd |}.

(** The characters from the space to the tilde. *)
Definition printable_ascii (c : ascii) : bool :=
  let n := N_of_ascii c in ((32 <=? n) && (n <=? 126))%N.

Fixpoint all_chars (p : ascii -> bool) (s : string) : bool :=
  match s with
  | EmptyString => true
  | String c s' => p c && all_chars p s'
  end.

(** The value of a lower-case hexadecimal digit. *)
Definition hex_value (c : ascii) : option N :=
  let n := N_of_ascii c in
  if ((48 <=? n) && (n <=? 57))%N then Some (n - 48)%N
  else if ((97 <=? n) && (n <=? 102))%N then Some (n - 87)%N
  else None.

(** Reading back what [Json.escape] wrote: a left inverse, used to show
    that the escaped text determines the text. *)
Fixpoint unescape (s : string) : option string :=
  match s with
  | EmptyString => Some EmptyString
  | String c s' =>
      if Ascii.eqb c Py.backslash then
        match s' with
        | EmptyString => None
        | String e s'' =>
            if Ascii.eqb e Py.dquote then String Py.dquote <$> unescape s''
            else if Ascii.eqb e Py.backslash then String Py.backslash <$> unescape s''
            else if Ascii.eqb e "n" then String "010" <$> unescape s''
            else if Ascii.eqb e "r" then String "013" <$> unescape s''
            else if Ascii.eqb e "t" then String "009" <$> unescape s''
            else if Ascii.eqb e "b" then String "008" <$> unescape s''
            else if Ascii.eqb e "f" then String "012" <$> unescape s''
            else if Ascii.eqb e "u" then
              match s'' with
              | String "0" (String "0" (String h (String l rest))) =>
                  match hex_value h, hex_value l with
                  | Some a, Some b => String (ascii_of_N (16 * a + b)) <$> unescape rest
                  | _, _ => None
                  end
              | _ => None
              end
            else None
        end
      else String c <$> unescape s'
  end.

(** The ways through [main], each with the process it ends in. *)
Inductive way (w : World) : Process -> Prop :=
| way_malformed (msg : string) :
    stdin w = Malformed msg ->
    way w (silent [])
| way_unreadable (f : load_failure) :
    stdin w = Unreadable f ->
    way w (crashed (load_exn f) [])
| way_inactive (v : Py.pyval) :
    stdin w = JSONDocument v ->
    activation w = false ->
    way w (silent [])
| way_not_object (v : Py.pyval) :
    stdin w = JSONDocument v ->
    activation w = true ->
    (forall d, v <> Py.PyDict d) ->
    way w (crashed (AttributeError ("'" +:+ Py.type_name v
                                    +:+ "' object has no attribute 'get'")) [])
| way_reentered (d : gmap string Py.pyval) :
    stdin w = JSONDocument (Py.PyDict d) ->
    activation w = true ->
    stop_hook_active d = true ->
    way w (silent [])
| way_clean (d : gmap string Py.pyval) (ok : bool) (s : Effects) :
    stdin w = JSONDocument (Py.PyDict d) ->
    activation w = true ->
    stop_hook_active d = false ->
    run_command w git_status_cmd 10 no_effects = (inr (ok, EmptyString), s) ->
    way w (silent (calls s))
| way_dirty (d : gmap string Py.pyval) (ok : bool) (git_status : string) (s : Effects) :
    stdin w = JSONDocument (Py.PyDict d) ->
    activation w = true ->
    stop_hook_active d = false ->
    run_command w git_status_cmd 10 no_effects = (inr (ok, git_status), s) ->
    git_status <> EmptyString ->
    way w {| exit_code := 0;
             output := Json.dumps (block_payload (prompt git_status (session_name w)))
                       +:+ String Py.nl EmptyString;
             traceback := None; queries := calls s |}
| way_raised (d : gmap string Py.pyval) (e : exn) (s : Effects) :
    stdin w = JSONDocument (Py.PyDict d) ->
    activation w = true ->
    stop_hook_active d = false ->
    run_command w git_status_cmd 10 no_effects = (inl (Raised e), s) ->
    way w (crashed e (calls s)).

(** Worlds used as examples, continued. *)
Definition permission_denied : os_error :=
  {| os_class := PermissionError; os_errno := 13;
     os_strerror := "Permission denied"; os_filename := Some "git" |}.

Definition nested_arrays : load_failure :=
  TooDeep "maximum recursion depth exceeded while decoding a JSON array from a unicode string".

Definition open_brackets : load_failure :=
  TooDeep "maximum recursion depth exceeded while decoding a JSON array from a unicode string".

Definition long_integer : load_failure :=
  TooManyDigits "Exceeds the limit (4300 digits) for integer string conversion: value has 4301 digits; use sys.set_int_max_str_digits() to increase the limit".

Definition stray_bytes : load_failure :=
  NotText "'utf-8' codec can't decode byte 0xff in position 0: invalid start byte".

Definition directory_gone : os_error :=
  {| os_class := FileNotFoundError; os_errno := 2;
     os_strerror := "No such file or directory"; os_filename := None |}.

(** ** Strings *)

Lemma append_assoc (a b c : string) : (a +:+ b) +:+ c = a +:+ (b +:+ c).
Proof.
  induction a as [|x a IH]; [reflexivity|].
  change (String x ((a +:+ b) +:+ c) = String x (a +:+ (b +:+ c))).
  now rewrite IH.
Qed.

Lemma str_truthy_true (s : string) : Py.str_truthy s = true <-> s <> EmptyString.
Proof. destruct s; cbn; split; intros; congruence. Qed.

Lemma str_truthy_false (s : string) : Py.str_truthy s = false <-> s = EmptyString.
Proof. destruct s; cbn; split; intros; congruence. Qed.

Lemma append_nonempty_l (c : ascii) (a b : string) :
  String c a +:+ b <> EmptyString.
Proof. discriminate. Qed.

(** The text of an exception the script catches is never empty. *)
Lemma str_exn_timeout_nonempty (cmd : list string) (t : Z) :
  Py.str_truthy (str_exn (TimeoutExpired cmd t)) = true.
Proof. reflexivity. Qed.

Lemma str_exn_oserror_nonempty (o : os_error) :
  Py.str_truthy (str_exn (OSError o)) = true.
Proof. reflexivity. Qed.

(** [strip] gives the empty string on white space and on nothing else. *)
Lemma lstrip_empty (s : string) : Py.lstrip s = EmptyString <-> Py.isblank s = true.
Proof.
  induction s as [|c s IH]; cbn; [tauto|].
  destruct (Py.isspace c); cbn; [exact IH|].
  split; discriminate.
Qed.

Lemma rstrip_empty (s : string) : Py.rstrip s = EmptyString <-> Py.isblank s = true.
Proof.
  induction s as [|c s IH]; cbn; [tauto|].
  destruct (Py.rstrip s) as [|c' t].
  - destruct (Py.isspace c); cbn.
    + split; [intros _; now apply IH | reflexivity].
    + split; discriminate.
  - split; [discriminate|]. intros [_ Hb]%andb_prop.
    apply IH in Hb. discriminate.
Qed.

Lemma isblank_lstrip (s : string) : Py.isblank (Py.lstrip s) = Py.isblank s.
Proof.
  induction s as [|c s IH]; [reflexivity|]. cbn.
  destruct (Py.isspace c) eqn:Hc; cbn; [exact IH|]. now rewrite Hc.
Qed.

Lemma strip_empty (s : string) : Py.strip s = EmptyString <-> Py.isblank s = true.
Proof. unfold Py.strip. now rewrite rstrip_empty, isblank_lstrip. Qed.

Example strip_porcelain_line :
  Py.strip (" M file.txt" +:+ String Py.nl EmptyString) = "M file.txt".
Proof. reflexivity. Qed.

Example strip_keeps_inner_space :
  Py.strip (String "009" " a  b " +:+ String Py.nl EmptyString) = "a  b".
Proof. reflexivity. Qed.

Example repr_list_git :
  Py.repr_list git_status_cmd = "['git', 'status', '--porcelain']".
Proof. reflexivity. Qed.

Example repr_str_with_quote :
  Py.repr_str "it's" = String Py.dquote ("it's" +:+ String Py.dquote EmptyString).
Proof. reflexivity. Qed.

Example str_exn_git_missing :
  str_exn (OSError git_missing) = "[Errno 2] No such file or directory: 'git'".
Proof. reflexivity. Qed.

Example str_exn_timeout :
  str_exn (TimeoutExpired git_status_cmd 10)
  = "Command '['git', 'status', '--porcelain']' timed out after 10 seconds".
Proof. reflexivity. Qed.

Example escape_newline_and_quote :
  Json.escape (String Py.nl (String Py.dquote "a"))
  = "\n\" +:+ String Py.dquote "a".
Proof. reflexivity. Qed.

Lemma contains_here (n post : string) : contains n (n +:+ post).
Proof. exists EmptyString, post. reflexivity. Qed.

Lemma contains_cons (n h : string) (c : ascii) :
  contains n h -> contains n (String c h).
Proof. intros (pre & post & ->). exists (String c pre), post. reflexivity. Qed.

Lemma contains_app_r (n pre h : string) :
  contains n h -> contains n (pre +:+ h).
Proof.
  intros H. induction pre as [|c pre IH]; [exact H|].
  apply (contains_cons _ (pre +:+ h)), IH.
Qed.

Lemma contains_app_l (n h post : string) :
  contains n h -> contains n (h +:+ post).
Proof.
  intros (pre & post' & ->). exists pre, (post' +:+ post).
  now rewrite !append_assoc.
Qed.

(** The reason shows the status text as it is. *)
Lemma contains_status (git_status session : string) :
  contains git_status (prompt git_status session).
Proof.
  unfold prompt. cbv [Py.text].
  do 4 (apply contains_app_r, contains_cons).
  apply contains_here.
Qed.

(** The reason names the progress record of the session. *)
Lemma contains_progress_file (git_status session : string) :
  contains ("progress-" +:+ session +:+ ".txt") (prompt git_status session).
Proof.
  unfold prompt. cbv [Py.text].
  do 12 (apply contains_app_r, contains_cons).
  apply contains_app_l.
  exists "**Progress file:** Always APPEND to `.claude/loop-progress/",
         "` (never overwrite).".
  rewrite !append_assoc. reflexivity.
Qed.

(** ** The status query *)

(** What [run_command] does, case by case on the world. *)
Lemma run_command_cases (w : World) (cmd : list string) (t : Z) (s : Effects) :
  run_command w cmd t s =
  match getcwd w with
  | inl e =>
      match os_class e with
      | FileNotFoundError => (inr (false, str_exn (OSError e)), s)
      | _ => (inl (Raised (OSError e)), s)
      end
  | inr dir =>
      let cwd := get_env w "CLAUDE_PROJECT_DIR" dir in
      match spawn w cmd t cwd with
      | Completed rc out => (inr (rc =? 0, Py.strip out), record_call s cmd t cwd)
      | TimedOut => (inr (false, str_exn (TimeoutExpired cmd t)), record_call s cmd t cwd)
      | SpawnFailed e =>
          match os_class e with
          | FileNotFoundError => (inr (false, str_exn (OSError e)), record_call s cmd t cwd)
          | _ => (inl (Raised (OSError e)), record_call s cmd t cwd)
          end
      | OutputNotText msg => (inl (Raised (UnicodeDecodeError msg)), record_call s cmd t cwd)
      | RunRaised cls msg => (inl (Raised (OtherException cls msg)), record_call s cmd t cwd)
      end
  end.
Proof.
  unfold run_command, try_except, os_getcwd, subprocess_run, record_call,
    mbind, M_bind, mret, M_ret, raise.
  destruct (getcwd w) as [e|dir]; cbn.
  - destruct (os_class e); reflexivity.
  - destruct (spawn w cmd t _) as [rc out| |e|msg|cls msg]; cbn; try reflexivity.
    destruct (os_class e); reflexivity.
Qed.

(** [run_command] prints nothing. *)
Lemma run_command_printed (w : World) (cmd : list string) (t : Z) (s : Effects) :
  printed (run_command w cmd t s).2 = printed s.
Proof.
  rewrite run_command_cases.
  destruct (getcwd w) as [e|dir]; cbn.
  - destruct (os_class e); reflexivity.
  - destruct (spawn w cmd t _) as [rc out| |e|msg|cls msg]; cbn; try reflexivity.
    destruct (os_class e); reflexivity.
Qed.

(** [run_command] never ends the process by itself. *)
Lemma run_command_no_exit (w : World) (cmd : list string) (t : Z) (s : Effects) (c : Z) :
  (run_command w cmd t s).1 <> inl (SystemExit c).
Proof.
  rewrite run_command_cases.
  destruct (getcwd w) as [e|dir]; cbn.
  - destruct (os_class e); discriminate.
  - destruct (spawn w cmd t _) as [rc out| |e|msg|cls msg]; cbn; try discriminate.
    destruct (os_class e); discriminate.
Qed.

(** ** The five ways through [main] *)

Ltac run_main :=
  unfold run, main, try_except, json_load, get_method, when, print, sys_exit,
    mbind, M_bind, mret, M_ret, raise.

(** The payload is not JSON. *)
Lemma run_malformed (w : World) (msg : string) :
  stdin w = Malformed msg -> run w = silent [].
Proof. intros Hin. run_main. rewrite Hin. reflexivity. Qed.

(** [json.load] fails on the payload in another way than by
    [JSONDecodeError]: nothing catches the exception. *)
Lemma run_unreadable (w : World) (f : load_failure) :
  stdin w = Unreadable f -> run w = crashed (load_exn f) [].
Proof. intros Hin. run_main. rewrite Hin. destruct f; reflexivity. Qed.

(** The gate is not activated, and [json.load] returned or raised
    [JSONDecodeError]. *)
Lemma run_inactive (w : World) :
  activation w = false ->
  (forall f, stdin w <> Unreadable f) ->
  run w = silent [].
Proof.
  unfold activation. intros Hact Hload. run_main.
  destruct (stdin w) as [v|msg|f]; cbn; [|reflexivity|now destruct (Hload f)].
  rewrite Hact. reflexivity.
Qed.

(** The gate is activated and the payload is JSON but not an object. *)
Lemma run_not_object (w : World) (v : Py.pyval) :
  activation w = true ->
  stdin w = JSONDocument v ->
  (forall d, v <> Py.PyDict d) ->
  run w = crashed (AttributeError ("'" +:+ Py.type_name v +:+ "' object has no attribute 'get'")) [].
Proof.
  unfold activation. intros Hact Hin Hv. run_main.
  rewrite Hin. cbn. rewrite Hact. cbn.
  destruct v; try reflexivity.
  now destruct (Hv d).
Qed.

(** The gate is activated and has fired before. *)
Lemma run_reentered (w : World) (d : gmap string Py.pyval) :
  activation w = true ->
  stdin w = JSONDocument (Py.PyDict d) ->
  stop_hook_active d = true ->
  run w = silent [].
Proof.
  unfold activation, stop_hook_active. intros Hact Hin Hre. run_main.
  rewrite Hin. cbn. rewrite Hact. cbn. rewrite Hre. reflexivity.
Qed.

(** The gate is activated and has not fired before: the status query
    decides. *)
Lemma run_checked (w : World) (d : gmap string Py.pyval) :
  activation w = true ->
  stdin w = JSONDocument (Py.PyDict d) ->
  stop_hook_active d = false ->
  run w =
  match run_command w git_status_cmd 10 no_effects with
  | (inr (_, git_status), s) =>
      if Py.str_truthy git_status
      then {| exit_code := 0;
              output := Json.dumps (block_payload (prompt git_status (session_name w)))
                        +:+ String Py.nl EmptyString;
              traceback := None; queries := calls s |}
      else silent (calls s)
  | (inl (SystemExit c), s) =>
      {| exit_code := c; output := EmptyString; traceback := None; queries := calls s |}
  | (inl (Raised e), s) => crashed e (calls s)
  end.
Proof.
  unfold activation, stop_hook_active. intros Hact Hin Hre. run_main.
  rewrite Hin. cbn. rewrite Hact. cbn. rewrite Hre. cbn.
  pose proof (run_command_printed w git_status_cmd 10 no_effects) as Hp.
  destruct (run_command w git_status_cmd 10 no_effects) as [[sig|[ok git_status]] s];
    cbn in Hp |- *.
  - destruct sig; unfold crashed; rewrite Hp; reflexivity.
  - destruct (Py.str_truthy git_status); cbn; unfold silent; rewrite Hp; reflexivity.
Qed.

(** ** Activation *)

Lemma activation_true (w : World) :
  activation w = true <->
  exists v, environ w !! "CLAUDE_PIPELINE_AGENT" = Some v /\ v <> EmptyString.
Proof.
  unfold activation, get_env.
  destruct (environ w !! "CLAUDE_PIPELINE_AGENT") as [v|]; cbn.
  - rewrite str_truthy_true. split.
    + intros Hv. exists v. split; [reflexivity|exact Hv].
    + intros (v' & [= <-] & Hv). exact Hv.
  - split; [discriminate|]. intros (v & [=] & _).
Qed.

Lemma activation_false (w : World) :
  activation w = false <->
  environ w !! "CLAUDE_PIPELINE_AGENT" = None \/
  environ w !! "CLAUDE_PIPELINE_AGENT" = Some EmptyString.
Proof.
  unfold activation, get_env.
  destruct (environ w !! "CLAUDE_PIPELINE_AGENT") as [v|]; cbn.
  - rewrite str_truthy_false. split.
    + intros ->. right. reflexivity.
    + intros [[=]|[= ->]]. reflexivity.
  - split; [intros _; left; reflexivity | reflexivity].
Qed.

(** ** The status query decides, in the words of the specification *)

Section Checked.

(** The gate is activated and has not fired before. *)
Variable w : World.
Variable d : gmap string Py.pyval.
Hypothesis Hact : activation w = true.
Hypothesis Hin : stdin w = JSONDocument (Py.PyDict d).
Hypothesis Hre : stop_hook_active d = false.

Lemma run_by_status_query :
  run w =
  match run_command w git_status_cmd 10 no_effects with
  | (inr (_, git_status), s) =>
      if Py.str_truthy git_status
      then {| exit_code := 0;
              output := Json.dumps (block_payload (prompt git_status (session_name w)))
                        +:+ String Py.nl EmptyString;
              traceback := None; queries := calls s |}
      else silent (calls s)
  | (inl (SystemExit c), s) =>
      {| exit_code := c; output := EmptyString; traceback := None; queries := calls s |}
  | (inl (Raised e), s) => crashed e (calls s)
  end.
Proof. exact (run_checked w d Hact Hin Hre). Qed.

Ltac by_status_query Hq :=
  rewrite run_by_status_query; unfold status_query in Hq;
  destruct (run_command w git_status_cmd 10 no_effects) as [r s];
  cbn in Hq; subst r.

Lemma checked_clean (ok : bool) :
  status_query w = inr (ok, EmptyString) ->
  allows (run w).
Proof. intros Hq. by_status_query Hq. repeat split. Qed.

Lemma checked_dirty (ok : bool) (git_status : string) :
  status_query w = inr (ok, git_status) ->
  git_status <> EmptyString ->
  blocks (run w) (prompt git_status (session_name w)).
Proof.
  intros Hq Hne. by_status_query Hq.
  apply str_truthy_true in Hne. rewrite Hne. repeat split.
Qed.

Lemma checked_raised (e : exn) :
  status_query w = inl (Raised e) ->
  run w = crashed e (queries (run w)).
Proof. intros Hq. by_status_query Hq. reflexivity. Qed.

End Checked.

(** BLOCK prints something, ALLOW prints nothing. *)
Lemma blocks_not_allows (p : Process) (reason : string) :
  blocks p reason -> ~ allows p.
Proof. intros (_ & _ & Hout) (_ & Hnone & _). rewrite Hnone in Hout. discriminate. Qed.

(** The status query when the child process could be started or not, and
    ended or not. *)
Lemma status_query_cases (w : World) :
  status_query w =
  match getcwd w with
  | inl e =>
      match os_class e with
      | FileNotFoundError => inr (false, str_exn (OSError e))
      | _ => inl (Raised (OSError e))
      end
  | inr dir =>
      match spawn w git_status_cmd 10 (get_env w "CLAUDE_PROJECT_DIR" dir) with
      | Completed rc out => inr (rc =? 0, Py.strip out)
      | TimedOut => inr (false, str_exn (TimeoutExpired git_status_cmd 10))
      | SpawnFailed e =>
          match os_class e with
          | FileNotFoundError => inr (false, str_exn (OSError e))
          | _ => inl (Raised (OSError e))
          end
      | OutputNotText msg => inl (Raised (UnicodeDecodeError msg))
      | RunRaised cls msg => inl (Raised (OtherException cls msg))
      end
  end.
Proof.
  unfold status_query. rewrite run_command_cases.
  destruct (getcwd w) as [e|dir]; cbn.
  - destruct (os_class e); reflexivity.
  - destruct (spawn w git_status_cmd 10 _) as [rc out| |e|msg|cls msg]; cbn; try reflexivity.
    destruct (os_class e); reflexivity.
Qed.

(** A query that could not be run, or ran out of time, is taken for a
    dirty tree: the text of the exception stands where the status text
    should, and the gate blocks. *)
Lemma failed_query_blocks (w : World) (d : gmap string Py.pyval) (dir : string) :
  activation w = true ->
  stdin w = JSONDocument (Py.PyDict d) ->
  stop_hook_active d = false ->
  getcwd w = inr dir ->
  (spawn w git_status_cmd 10 (get_env w "CLAUDE_PROJECT_DIR" dir) = TimedOut ->
   blocks (run w) (prompt (str_exn (TimeoutExpired git_status_cmd 10)) (session_name w)))
  /\
  (forall e, spawn w git_status_cmd 10 (get_env w "CLAUDE_PROJECT_DIR" dir) = SpawnFailed e ->
             os_class e = FileNotFoundError ->
             blocks (run w) (prompt (str_exn (OSError e)) (session_name w))).
Proof.
  intros Hact Hin Hre Hcwd. split.
  - intros Hsp. apply (checked_dirty w d Hact Hin Hre false).
    + rewrite status_query_cases, Hcwd, Hsp. reflexivity.
    + discriminate.
  - intros e Hsp Hcls. apply (checked_dirty w d Hact Hin Hre false).
    + rewrite status_query_cases, Hcwd, Hsp, Hcls. reflexivity.
    + discriminate.
Qed.

(** An [OSError] of another class, such as [PermissionError], is not
    caught: it ends the process with a traceback. *)
Lemma uncaught_oserror_crashes (w : World) (d : gmap string Py.pyval) (dir : string)
    (e : os_error) :
  activation w = true ->
  stdin w = JSONDocument (Py.PyDict d) ->
  stop_hook_active d = false ->
  getcwd w = inr dir ->
  spawn w git_status_cmd 10 (get_env w "CLAUDE_PROJECT_DIR" dir) = SpawnFailed e ->
  os_class e <> FileNotFoundError ->
  exit_code (run w) = 1 /\ traceback (run w) = Some (OSError e).
Proof.
  intros Hact Hin Hre Hcwd Hsp Hcls.
  assert (Hq : status_query w = inl (Raised (OSError e))).
  { rewrite status_query_cases, Hcwd, Hsp. now destruct (os_class e). }
  rewrite (checked_raised w d Hact Hin Hre _ Hq). split; reflexivity.
Qed.

(** Where the exit status is 0: [json.load] returns or raises
    [JSONDecodeError]; the payload, when it is JSON, is an object; neither
    the working directory nor the child process fails with an [OSError]
    other than [FileNotFoundError]; and [subprocess.run] raises nothing
    else. *)
Lemma exit_zero_on_expected_input (w : World) :
  (forall f, stdin w <> Unreadable f) ->
  (forall v, stdin w = JSONDocument v -> exists d, v = Py.PyDict d) ->
  (forall e, getcwd w = inl e -> os_class e = FileNotFoundError) ->
  (forall cmd t cwd e, spawn w cmd t cwd = SpawnFailed e -> os_class e = FileNotFoundError) ->
  (forall cmd t cwd rc, spawn w cmd t cwd = rc ->
     (forall msg, rc <> OutputNotText msg) /\ (forall cls msg, rc <> RunRaised cls msg)) ->
  exit_code (run w) = 0 /\ traceback (run w) = None.
Proof.
  intros Hload Hobj Hcwd Hsp Htext.
  destruct (activation w) eqn:Hact; [|now rewrite run_inactive].
  destruct (stdin w) as [v|msg|f] eqn:Hin;
    [|now rewrite (run_malformed w msg)|now destruct (Hload f)].
  destruct (Hobj v eq_refl) as [d ->].
  destruct (stop_hook_active d) eqn:Hre; [now rewrite (run_reentered w d)|].
  destruct (status_query w) as [[c|e]|[ok git_status]] eqn:Hq.
  - exfalso. exact (run_command_no_exit w git_status_cmd 10 no_effects c Hq).
  - exfalso. rewrite status_query_cases in Hq.
    destruct (getcwd w) as [e'|dir] eqn:Hg.
    + rewrite (Hcwd e' eq_refl) in Hq. discriminate.
    + destruct (spawn w git_status_cmd 10 _) as [rc out| |e'|msg|cls msg] eqn:Hs;
        try discriminate.
      * rewrite (Hsp _ _ _ _ Hs) in Hq. discriminate.
      * destruct (Htext _ _ _ _ Hs) as [H _]. now destruct (H msg).
      * destruct (Htext _ _ _ _ Hs) as [_ H]. now destruct (H cls msg).
  - destruct git_status as [|c git_status].
    + destruct (checked_clean w d Hact Hin Hre ok Hq) as (? & ? & ?). now split.
    + assert (Hne : String c git_status <> EmptyString) by discriminate.
      destruct (checked_dirty w d Hact Hin Hre ok _ Hq Hne) as (? & ? & ?). now split.
Qed.

(** ** The scenarios of the specification *)

(** Scenario A: the agent-mode variable unset, any payload. *)
Example scenario_A :
  run (world ∅ (JSONDocument (Py.PyStr "anything")) (Completed 0 "?? new.txt"))
  = silent [].
Proof. reflexivity. Qed.

(** Scenario B: activated, [stop_hook_active] true, dirty tree. *)
Example scenario_B :
  run (world agent_env
         (JSONDocument (Py.PyDict {[ "stop_hook_active" := Py.PyBool true ]}))
         (Completed 0 "M file.txt"))
  = silent [].
Proof. reflexivity. Qed.

(** Scenario C: activated, [stop_hook_active] false, clean tree. *)
Example scenario_C :
  run (world agent_env
         (JSONDocument (Py.PyDict {[ "stop_hook_active" := Py.PyBool false ]}))
         (Completed 0 EmptyString))
  = silent [{| call_cmd := git_status_cmd; call_timeout := 10; call_cwd := "/repo" |}].
Proof. reflexivity. Qed.

(** Scenario D: activated, empty object, status [M file.txt], session
    [alpha]. *)
Example scenario_D :
  blocks (run (world alpha_env empty_object (Completed 0 "M file.txt")))
         (prompt "M file.txt" "alpha")
  /\ contains "M file.txt" (prompt "M file.txt" "alpha")
  /\ contains "progress-alpha.txt" (prompt "M file.txt" "alpha").
Proof.
  split; [repeat split|].
  split; [apply contains_status | apply (contains_progress_file _ "alpha")].
Qed.

(** The printed line has the shape [json.dumps] gives a dictionary. *)
Example dumps_shape :
  Json.dumps [("decision", "block"); ("reason", "r")]
  = "{" +:+ Json.encode_str "decision" +:+ ": " +:+ Json.encode_str "block" +:+ ", "
        +:+ Json.encode_str "reason" +:+ ": " +:+ Json.encode_str "r" +:+ "}".
Proof. reflexivity. Qed.

(** ** The properties the specification states *)

(** C1, evaluated where the code departs from it.  The claim: when the
    status query fails (the tool is not found) or runs out of time, the
    verdict is ALLOW.  The script: with the gate activated, an empty JSON
    object on standard input and no [git] to run, it prints a BLOCK payload
    whose reason shows the text of [FileNotFoundError] as if it were the list
    of uncommitted files; the same with a query that times out. *)
Theorem C1_failed_query_is_blocked :
  blocks (run (world agent_env empty_object (SpawnFailed git_missing)))
         (prompt "[Errno 2] No such file or directory: 'git'" "default")
  /\ blocks (run (world agent_env empty_object TimedOut))
            (prompt "Command '['git', 'status', '--porcelain']' timed out after 10 seconds"
                    "default")
  /\ ~ allows (run (world agent_env empty_object (SpawnFailed git_missing)))
  /\ ~ allows (run (world agent_env empty_object TimedOut)).
Proof.
  assert (H1 : blocks (run (world agent_env empty_object (SpawnFailed git_missing)))
                 (prompt "[Errno 2] No such file or directory: 'git'" "default")).
  { destruct (failed_query_blocks (world agent_env empty_object (SpawnFailed git_missing))
                ∅ "/repo" eq_refl eq_refl eq_refl eq_refl) as [_ H].
    exact (H git_missing eq_refl eq_refl). }
  assert (H2 : blocks (run (world agent_env empty_object TimedOut))
                 (prompt "Command '['git', 'status', '--porcelain']' timed out after 10 seconds"
                    "default")).
  { destruct (failed_query_blocks (world agent_env empty_object TimedOut)
                ∅ "/repo" eq_refl eq_refl eq_refl eq_refl) as [H _].
    exact (H eq_refl). }
  repeat split; try apply H1; try apply H2; eapply blocks_not_allows; eassumption.
Qed.

(** With the agent-mode variable unset or empty, and input that
    [json.load] decodes or rejects with [JSONDecodeError], the process
    exits with status 0, prints nothing and starts no child process,
    whatever the decoded value and whatever the repository looks like. *)
Lemma inactive_gate_is_silent (w : World) :
  environ w !! "CLAUDE_PIPELINE_AGENT" = None \/
  environ w !! "CLAUDE_PIPELINE_AGENT" = Some EmptyString ->
  (forall f, stdin w <> Unreadable f) ->
  run w = silent [].
Proof. intros H Hload. apply run_inactive; [apply activation_false, H|exact Hload]. Qed.

(** Input that [json.load] fails on without [JSONDecodeError] ends the
    process with a traceback, whatever the environment variables are and
    whatever the repository looks like: the activation flag is not looked
    at, and no child process is started. *)
Lemma unreadable_payload_crashes (w : World) (f : load_failure) :
  stdin w = Unreadable f ->
  exit_code (run w) = 1 /\ output (run w) = EmptyString
  /\ traceback (run w) = Some (load_exn f) /\ queries (run w) = [].
Proof. intros Hin. rewrite (run_unreadable w f Hin). now repeat split. Qed.

(** C2, evaluated where the code departs from it.  The claim: with the
    agent-mode variable unset or empty the process exits with status 0 and
    prints nothing, whatever is on standard input.  The script: [main] calls
    [json.load] before it looks at the variable, and catches
    [JSONDecodeError] only.  With the variable unset and 2000 nested arrays
    on standard input [json.load] raises [RecursionError]; with an integer
    of 4301 digits it raises [ValueError]; either reaches the top, and the
    interpreter exits with status 1 and a traceback. *)
Theorem C2_inactive_gate_crashes_on_unreadable_payload :
  environ (world ∅ (Unreadable nested_arrays) (Completed 0 EmptyString))
    !! "CLAUDE_PIPELINE_AGENT" = None
  /\ run (world ∅ (Unreadable nested_arrays) (Completed 0 EmptyString))
     = crashed (RecursionError
                  "maximum recursion depth exceeded while decoding a JSON array from a unicode string")
               []
  /\ exit_code (run (world ∅ (Unreadable nested_arrays) (Completed 0 EmptyString))) <> 0
  /\ traceback (run (world ∅ (Unreadable long_integer) (Completed 0 EmptyString)))
     = Some (load_exn long_integer)
  /\ exit_code (run (world ∅ (Unreadable long_integer) (Completed 0 EmptyString))) <> 0.
Proof. repeat split; discriminate. Qed.

(** C3, evaluated where the code departs from it.  The claim: whatever the
    payload, the process exits with status 0 and no failure reaches the
    host.  The script: with the gate activated and the JSON document [[]] on
    standard input, [input_data.get] raises [AttributeError], nothing catches
    it, and the interpreter exits with status 1 and a traceback. *)
Theorem C3_array_payload_crashes :
  run (world agent_env (JSONDocument (Py.PyList [])) (Completed 0 EmptyString))
  = crashed (AttributeError "'list' object has no attribute 'get'") []
  /\ exit_code (run (world agent_env (JSONDocument (Py.PyList [])) (Completed 0 EmptyString))) <> 0.
Proof. split; [reflexivity | discriminate]. Qed.

(** C4: when the gate is activated and the payload's [stop_hook_active] is
    true, the verdict is ALLOW, no child process is started, and the
    outcome is the same in every world with these variables and this
    payload, whatever its repository. *)
Theorem C4_reentry_allows_without_query (w : World) (d : gmap string Py.pyval) :
  activation w = true ->
  stdin w = JSONDocument (Py.PyDict d) ->
  d !! "stop_hook_active" = Some (Py.PyBool true) ->
  allows (run w) /\ queries (run w) = [] /\
  forall w', environ w' = environ w -> stdin w' = stdin w -> run w' = run w.
Proof.
  intros Hact Hin Hflag.
  assert (Hre : stop_hook_active d = true) by (unfold stop_hook_active; now rewrite Hflag).
  rewrite (run_reentered w d Hact Hin Hre).
  split; [repeat split|]. split; [reflexivity|].
  intros w' Henv Hin'. apply (run_reentered w' d); [|congruence|exact Hre].
  unfold activation, get_env in *. now rewrite Henv.
Qed.

Lemma C4_reentry_allows_without_query_witness :
  let w := world agent_env
             (JSONDocument (Py.PyDict {[ "stop_hook_active" := Py.PyBool true ]}))
             (Completed 0 " M file.txt") in
  allows (run w) /\ queries (run w) = [] /\
  forall w', environ w' = environ w -> stdin w' = stdin w -> run w' = run w.
Proof.
  exact (C4_reentry_allows_without_query
           (world agent_env
              (JSONDocument (Py.PyDict {[ "stop_hook_active" := Py.PyBool true ]}))
              (Completed 0 " M file.txt"))
           {[ "stop_hook_active" := Py.PyBool true ]} eq_refl eq_refl eq_refl).
Defined.

(** C5: when the gate is activated, has not fired before, and the status
    query succeeds with a status text that is not empty, the verdict is
    BLOCK: the payload's decision tag is [block], and its reason contains
    the status text as it is and the name [progress-<session>.txt] of the
    progress record, where the session is the value of the session variable
    and is [default] when that variable is unset. *)
Theorem C5_dirty_tree_blocks (w : World) (d : gmap string Py.pyval)
    (git_status : string) :
  activation w = true ->
  stdin w = JSONDocument (Py.PyDict d) ->
  stop_hook_active d = false ->
  status_query w = inr (true, git_status) ->
  git_status <> EmptyString ->
  exists reason,
    blocks (run w) reason
    /\ block_payload reason = [("decision", "block"); ("reason", reason)]
    /\ contains git_status reason
    /\ contains ("progress-" +:+ session_name w +:+ ".txt") reason
    /\ (forall v, environ w !! "CLAUDE_PIPELINE_SESSION" = Some v -> session_name w = v)
    /\ (environ w !! "CLAUDE_PIPELINE_SESSION" = None -> session_name w = "default").
Proof.
  intros Hact Hin Hre Hq Hne.
  exists (prompt git_status (session_name w)).
  split; [exact (checked_dirty w d Hact Hin Hre true git_status Hq Hne)|].
  split; [reflexivity|].
  split; [apply contains_status|].
  split; [apply contains_progress_file|].
  unfold session_name, get_env. split.
  - intros v ->. reflexivity.
  - intros ->. reflexivity.
Qed.

Lemma C5_dirty_tree_blocks_witness :
  let w := world alpha_env empty_object
             (Completed 0 (" M file.txt" +:+ String Py.nl EmptyString)) in
  status_query w = inr (true, "M file.txt")
  /\ exists reason,
    blocks (run w) reason
    /\ block_payload reason = [("decision", "block"); ("reason", reason)]
    /\ contains "M file.txt" reason
    /\ contains ("progress-" +:+ session_name w +:+ ".txt") reason
    /\ (forall v, environ w !! "CLAUDE_PIPELINE_SESSION" = Some v -> session_name w = v)
    /\ (environ w !! "CLAUDE_PIPELINE_SESSION" = None -> session_name w = "default").
Proof.
  split; [reflexivity|].
  apply (C5_dirty_tree_blocks
           (world alpha_env empty_object
              (Completed 0 (" M file.txt" +:+ String Py.nl EmptyString)))
           ∅ "M file.txt" eq_refl eq_refl eq_refl eq_refl).
  discriminate.
Defined.

(** C6: when the gate is activated, has not fired before, and the status
    query succeeds with an empty status text (a clean working tree), the
    process exits with status 0 and prints nothing. *)
Theorem C6_clean_tree_allows (w : World) (d : gmap string Py.pyval) :
  activation w = true ->
  stdin w = JSONDocument (Py.PyDict d) ->
  stop_hook_active d = false ->
  status_query w = inr (true, EmptyString) ->
  exit_code (run w) = 0 /\ output (run w) = EmptyString /\ traceback (run w) = None.
Proof. intros Hact Hin Hre Hq. exact (checked_clean w d Hact Hin Hre true Hq). Qed.

Lemma C6_clean_tree_allows_witness :
  let w := world agent_env
             (JSONDocument (Py.PyDict {[ "stop_hook_active" := Py.PyBool false ]}))
             (Completed 0 EmptyString) in
  status_query w = inr (true, EmptyString)
  /\ exit_code (run w) = 0 /\ output (run w) = EmptyString /\ traceback (run w) = None.
Proof.
  split; [reflexivity|].
  exact (C6_clean_tree_allows
           (world agent_env
              (JSONDocument (Py.PyDict {[ "stop_hook_active" := Py.PyBool false ]}))
              (Completed 0 EmptyString))
           {[ "stop_hook_active" := Py.PyBool false ]} eq_refl eq_refl eq_refl eq_refl).
Defined.

(** C7: two invocations with the same environment variables, the same
    payload on standard input and the same result of the status query end
    alike: same exit status, same text printed, same traceback or none. *)
Theorem C7_same_inputs_same_verdict (w1 w2 : World) :
  environ w1 = environ w2 ->
  stdin w1 = stdin w2 ->
  status_query w1 = status_query w2 ->
  exit_code (run w1) = exit_code (run w2)
  /\ output (run w1) = output (run w2)
  /\ traceback (run w1) = traceback (run w2).
Proof.
  intros Henv Hin Hq.
  assert (Hact : activation w1 = activation w2)
    by (unfold activation, get_env; now rewrite Henv).
  assert (Hses : session_name w1 = session_name w2)
    by (unfold session_name, get_env; now rewrite Henv).
  destruct (stdin w2) as [v|msg|f] eqn:Hin2.
  2:{ rewrite (run_malformed w1 msg Hin), (run_malformed w2 msg Hin2). repeat split. }
  2:{ rewrite (run_unreadable w1 f Hin), (run_unreadable w2 f Hin2). repeat split. }
  destruct (activation w2) eqn:Hact2.
  2:{ rewrite (run_inactive w1 Hact), (run_inactive w2 Hact2);
        [repeat split|congruence|congruence]. }
  assert (Hv : (exists d, v = Py.PyDict d) \/ (forall d, v <> Py.PyDict d))
    by (destruct v; eauto; right; discriminate).
  destruct Hv as [[d ->]|Hv].
  2:{ rewrite (run_not_object w1 v Hact Hin Hv), (run_not_object w2 v Hact2 Hin2 Hv).
      repeat split. }
  destruct (stop_hook_active d) eqn:Hre.
  { rewrite (run_reentered w1 d Hact Hin Hre), (run_reentered w2 d Hact2 Hin2 Hre).
    repeat split. }
  rewrite (run_checked w1 d Hact Hin Hre), (run_checked w2 d Hact2 Hin2 Hre).
  unfold status_query in Hq. rewrite Hses.
  destruct (run_command w1 git_status_cmd 10 no_effects) as [r1 s1].
  destruct (run_command w2 git_status_cmd 10 no_effects) as [r2 s2].
  cbn in Hq. subst r2.
  destruct r1 as [[c|e]|[ok git_status]]; cbn; try (repeat split; fail).
  destruct (Py.str_truthy git_status); repeat split.
Qed.

Lemma C7_same_inputs_same_verdict_witness :
  let w1 := world alpha_env empty_object
              (Completed 0 (" M file.txt" +:+ String Py.nl EmptyString)) in
  let w2 := {| environ := alpha_env; stdin := empty_object; getcwd := inr "/elsewhere";
               spawn := fun _ _ _ => Completed 0 "M file.txt" |} in
  (environ w1 = environ w2 /\ stdin w1 = stdin w2 /\ status_query w1 = status_query w2)
  /\ exit_code (run w1) = exit_code (run w2)
  /\ output (run w1) = output (run w2)
  /\ traceback (run w1) = traceback (run w2).
Proof.
  split; [repeat split|].
  exact (C7_same_inputs_same_verdict
           (world alpha_env empty_object
              (Completed 0 (" M file.txt" +:+ String Py.nl EmptyString)))
           {| environ := alpha_env; stdin := empty_object; getcwd := inr "/elsewhere";
              spawn := fun _ _ _ => Completed 0 "M file.txt" |}
           eq_refl eq_refl eq_refl).
Defined.

(** C8, evaluated where the code departs from it.  The claim: whenever
    the payload on standard input cannot be parsed as JSON the process
    exits with status 0 and prints nothing.  The script: [main] catches
    [JSONDecodeError] only.  On the two bytes ff fe [json.load] raises
    [UnicodeDecodeError], on a long run of opening brackets that nothing
    closes it raises [RecursionError]; neither is caught, and the
    interpreter exits with status 1 and a traceback, the gate activated or
    not. *)
Theorem C8_unparseable_payload_crashes :
  run (world alpha_env (Unreadable stray_bytes) (Completed 0 EmptyString))
  = crashed (UnicodeDecodeError
               "'utf-8' codec can't decode byte 0xff in position 0: invalid start byte")
            []
  /\ exit_code (run (world alpha_env (Unreadable stray_bytes) (Completed 0 EmptyString))) <> 0
  /\ exit_code (run (world ∅ (Unreadable stray_bytes) (Completed 0 EmptyString))) <> 0
  /\ run (world alpha_env (Unreadable open_brackets) (Completed 0 EmptyString))
     = crashed (RecursionError
                  "maximum recursion depth exceeded while decoding a JSON array from a unicode string")
               []
  /\ exit_code (run (world ∅ (Unreadable open_brackets) (Completed 0 EmptyString))) <> 0.
Proof. repeat split; discriminate. Qed.

(** Text that [json.load] rejects with [JSONDecodeError] ends the process
    silently with status 0, before a variable is read or a child process
    started. *)
Example rejected_text_is_silent :
  run (world alpha_env (Malformed "Expecting value: line 1 column 1 (char 0)")
         (Completed 0 " M file.txt"))
  = silent [].
Proof. reflexivity. Qed.

(** C9 as stated fails: with the gate activated and not fired before, a
    status command that prints a single newline, which is text and is not
    empty, and exits with status 1 yields ALLOW, not BLOCK. *)
Lemma C9_blank_output_allows :
  let w := world agent_env empty_object (Completed 1 (String Py.nl EmptyString)) in
  activation w = true
  /\ stdin w = JSONDocument (Py.PyDict ∅)
  /\ stop_hook_active ∅ = false
  /\ spawn w git_status_cmd 10 (get_env w "CLAUDE_PROJECT_DIR" "/repo")
     = Completed 1 (String Py.nl EmptyString)
  /\ String Py.nl EmptyString <> EmptyString
  /\ allows (run w)
  /\ forall reason, ~ blocks (run w) reason.
Proof.
  cbv zeta. repeat split; try reflexivity; try discriminate.
  intros reason (_ & _ & Hout). discriminate Hout.
Qed.

(** C9, amended: with the gate activated and not fired before, the verdict
    depends only on the text the status command writes to standard output
    with the white space at its two ends removed, never on the command's
    exit status: when that stripped text is empty the verdict is ALLOW, also
    when the command exits non-zero, and when it is not empty the verdict
    is BLOCK, also when the command reports failure. *)
Theorem C9_stripped_output_decides (w : World) (d : gmap string Py.pyval)
    (dir : string) (rc : Z) (out : string) :
  activation w = true ->
  stdin w = JSONDocument (Py.PyDict d) ->
  stop_hook_active d = false ->
  getcwd w = inr dir ->
  spawn w git_status_cmd 10 (get_env w "CLAUDE_PROJECT_DIR" dir) = Completed rc out ->
  (out = EmptyString -> allows (run w))
  /\ (Py.strip out = EmptyString -> allows (run w))
  /\ (Py.strip out <> EmptyString ->
      blocks (run w) (prompt (Py.strip out) (session_name w))).
Proof.
  intros Hact Hin Hre Hcwd Hsp.
  assert (Hq : status_query w = inr (rc =? 0, Py.strip out))
    by (now rewrite status_query_cases, Hcwd, Hsp).
  assert (Hclean : Py.strip out = EmptyString -> allows (run w)).
  { intros Hs. rewrite Hs in Hq. exact (checked_clean w d Hact Hin Hre _ Hq). }
  split; [intros ->; now apply Hclean|].
  split; [exact Hclean|].
  intros Hs. exact (checked_dirty w d Hact Hin Hre _ _ Hq Hs).
Qed.

Lemma C9_stripped_output_decides_witness :
  let w := world agent_env empty_object
             (Completed 128 (" M file.txt" +:+ String Py.nl EmptyString)) in
  Py.strip (" M file.txt" +:+ String Py.nl EmptyString) = "M file.txt"
  /\ (" M file.txt" +:+ String Py.nl EmptyString = EmptyString -> allows (run w))
  /\ (Py.strip (" M file.txt" +:+ String Py.nl EmptyString) = EmptyString -> allows (run w))
  /\ (Py.strip (" M file.txt" +:+ String Py.nl EmptyString) <> EmptyString ->
      blocks (run w)
        (prompt (Py.strip (" M file.txt" +:+ String Py.nl EmptyString)) (session_name w))).
Proof.
  split; [reflexivity|].
  exact (C9_stripped_output_decides
           (world agent_env empty_object
              (Completed 128 (" M file.txt" +:+ String Py.nl EmptyString)))
           ∅ "/repo" 128 (" M file.txt" +:+ String Py.nl EmptyString)
           eq_refl eq_refl eq_refl eq_refl eq_refl).
Defined.

Example git_failure_with_output_blocks :
  blocks (run (world agent_env empty_object
                 (Completed 128 (" M file.txt" +:+ String Py.nl EmptyString))))
         (prompt "M file.txt" "default").
Proof. repeat split. Qed.

Example git_failure_without_output_allows :
  run (world agent_env empty_object (Completed 128 EmptyString))
  = silent [{| call_cmd := git_status_cmd; call_timeout := 10; call_cwd := "/repo" |}].
Proof. reflexivity. Qed.

(** C10: the gate is activated exactly when the agent-mode variable is set
    to a string that is not empty.  The values [0] and [false] activate it;
    an unset variable and the empty string are the only ways to leave it
    off.  Off, the process ends silently, on every payload that
    [json.load] decodes or rejects with [JSONDecodeError] (on any other it
    dies of the exception [json.load] raised); on, with a payload object
    that does not report an earlier firing, the status query decides, and
    a status text that is not empty yields BLOCK. *)
Theorem C10_activation_is_nonemptiness (w : World) :
  (activation w = true <->
   exists v, environ w !! "CLAUDE_PIPELINE_AGENT" = Some v /\ v <> EmptyString)
  /\ (activation w = false <->
      environ w !! "CLAUDE_PIPELINE_AGENT" = None \/
      environ w !! "CLAUDE_PIPELINE_AGENT" = Some EmptyString)
  /\ (environ w !! "CLAUDE_PIPELINE_AGENT" = Some "0" -> activation w = true)
  /\ (environ w !! "CLAUDE_PIPELINE_AGENT" = Some "false" -> activation w = true)
  /\ (activation w = false ->
      run w = match stdin w with
              | Unreadable f => crashed (load_exn f) []
              | _ => silent []
              end)
  /\ (activation w = true ->
      forall d ok git_status,
        stdin w = JSONDocument (Py.PyDict d) ->
        stop_hook_active d = false ->
        status_query w = inr (ok, git_status) ->
        git_status <> EmptyString ->
        blocks (run w) (prompt git_status (session_name w))).
Proof.
  split; [apply activation_true|].
  split; [apply activation_false|].
  split; [intros H; apply activation_true; exists "0"; split; [exact H|discriminate]|].
  split; [intros H; apply activation_true; exists "false"; split; [exact H|discriminate]|].
  split.
  { intros Hact. destruct (stdin w) as [v|msg|f] eqn:Hin.
    - apply (run_inactive w Hact). congruence.
    - apply (run_inactive w Hact). congruence.
    - exact (run_unreadable w f Hin). }
  intros Hact d ok git_status Hin Hre Hq Hne.
  exact (checked_dirty w d Hact Hin Hre ok git_status Hq Hne).
Qed.

(** ** More about strings *)

Lemma length_append (a b : string) :
  String.length (a +:+ b) = (String.length a + String.length b)%nat.
Proof.
  induction a as [|c a IH]; [reflexivity|].
  change (S (String.length (a +:+ b)) = S (String.length a + String.length b)).
  now rewrite IH.
Qed.

Lemma append_inv_tail (a b c : string) : a +:+ c = b +:+ c -> a = b.
Proof.
  revert b. induction a as [|x a IH]; intros [|y b] H.
  - reflexivity.
  - apply (f_equal String.length) in H.
    rewrite !length_append in H. cbn [String.length] in H. lia.
  - apply (f_equal String.length) in H.
    rewrite !length_append in H. cbn [String.length] in H. lia.
  - change (String x (a +:+ c) = String y (b +:+ c)) in H.
    injection H as -> H. f_equal. now apply IH.
Qed.

Lemma all_chars_append (p : ascii -> bool) (a b : string) :
  all_chars p (a +:+ b) = all_chars p a && all_chars p b.
Proof.
  induction a as [|c a IH]; [reflexivity|].
  change (p c && all_chars p (a +:+ b) = p c && all_chars p a && all_chars p b).
  rewrite IH. now destruct (p c).
Qed.

Lemma isblank_append (a b : string) :
  Py.isblank (a +:+ b) = Py.isblank a && Py.isblank b.
Proof.
  induction a as [|c a IH]; [reflexivity|].
  change (Py.isspace c && Py.isblank (a +:+ b)
          = Py.isspace c && Py.isblank a && Py.isblank b).
  rewrite IH. now destruct (Py.isspace c).
Qed.

(** [lstrip] and [rstrip] take away white space only, and only at their
    end of the text. *)
Lemma lstrip_split (s : string) :
  exists pre, s = pre +:+ Py.lstrip s /\ Py.isblank pre = true.
Proof.
  induction s as [|c s (pre & Hs & Hb)]; [now exists EmptyString|].
  cbn [Py.lstrip]. destruct (Py.isspace c) eqn:Hc.
  - exists (String c pre). split.
    + change (String c s = String c (pre +:+ Py.lstrip s)). now rewrite <- Hs.
    + cbn. now rewrite Hc.
  - now exists EmptyString.
Qed.

Lemma rstrip_split (s : string) :
  exists post, s = Py.rstrip s +:+ post /\ Py.isblank post = true.
Proof.
  induction s as [|c s (post & Hs & Hb)]; [now exists EmptyString|].
  cbn [Py.rstrip]. destruct (Py.rstrip s) as [|c' t] eqn:Hr.
  - destruct (Py.isspace c) eqn:Hc.
    + exists (String c s). split; [reflexivity|].
      cbn. rewrite Hc. cbn. now apply rstrip_empty.
    + exists post. split; [|exact Hb].
      change (String c s = String c (EmptyString +:+ post)). now rewrite <- Hs.
  - exists post. split; [|exact Hb].
    change (String c s = String c (String c' t +:+ post)). now rewrite <- Hs.
Qed.

Lemma rstrip_cons (c : ascii) (s : string) :
  Py.rstrip (String c s) =
  match Py.rstrip s with
  | EmptyString => if Py.isspace c then EmptyString else String c EmptyString
  | t => String c t
  end.
Proof. reflexivity. Qed.

Lemma rstrip_idempotent (s : string) : Py.rstrip (Py.rstrip s) = Py.rstrip s.
Proof.
  induction s as [|c s IH]; [reflexivity|].
  rewrite rstrip_cons. destruct (Py.rstrip s) as [|c' t] eqn:Hr.
  - destruct (Py.isspace c) eqn:Hc; [reflexivity|]. cbn. now rewrite Hc.
  - rewrite rstrip_cons, IH. reflexivity.
Qed.

(** [rstrip] leaves the first character alone when something is left. *)
Lemma lstrip_rstrip_fixed (s : string) :
  Py.lstrip s = s -> Py.lstrip (Py.rstrip s) = Py.rstrip s.
Proof.
  destruct s as [|c s]; [reflexivity|].
  cbn [Py.lstrip Py.rstrip]. destruct (Py.isspace c) eqn:Hc.
  - intros H. exfalso.
    destruct (lstrip_split s) as (pre & Hs & _).
    apply (f_equal String.length) in H, Hs.
    rewrite length_append in Hs. cbn [String.length] in H. lia.
  - intros _. destruct (Py.rstrip s); cbn; now rewrite Hc.
Qed.

Lemma lstrip_idempotent (s : string) : Py.lstrip (Py.lstrip s) = Py.lstrip s.
Proof.
  induction s as [|c s IH]; [reflexivity|].
  cbn [Py.lstrip]. destruct (Py.isspace c) eqn:Hc; [exact IH|].
  cbn. now rewrite Hc.
Qed.

Lemma strip_fixed (s : string) :
  Py.lstrip (Py.strip s) = Py.strip s /\ Py.rstrip (Py.strip s) = Py.strip s.
Proof.
  unfold Py.strip. split.
  - apply lstrip_rstrip_fixed, lstrip_idempotent.
  - apply rstrip_idempotent.
Qed.

Lemma strip_split (s : string) :
  exists pre post,
    s = pre +:+ Py.strip s +:+ post /\ Py.isblank pre = true /\ Py.isblank post = true.
Proof.
  destruct (lstrip_split s) as (pre & Hs & Hpre).
  destruct (rstrip_split (Py.lstrip s)) as (post & Hl & Hpost).
  exists pre, post. unfold Py.strip. now rewrite <- Hl, <- Hs.
Qed.

(** ** The printed line *)

Ltac each_char c := destruct c as [[] [] [] [] [] [] [] []].

Lemma escape_char_printable (c : ascii) :
  all_chars printable_ascii (Json.escape_char c) = true.
Proof. each_char c; vm_compute; reflexivity. Qed.

Lemma escape_printable (s : string) :
  all_chars printable_ascii (Json.escape s) = true.
Proof.
  induction s as [|c s IH]; [reflexivity|].
  change (Json.escape (String c s)) with (Json.escape_char c +:+ Json.escape s).
  now rewrite all_chars_append, escape_char_printable, IH.
Qed.

Lemma encode_str_printable (s : string) :
  all_chars printable_ascii (Json.encode_str s) = true.
Proof.
  unfold Json.encode_str.
  change (all_chars printable_ascii (Json.escape s +:+ String Py.dquote EmptyString) = true).
  now rewrite all_chars_append, escape_printable.
Qed.

Lemma concat_printable (items : list string) :
  Forall (fun i => all_chars printable_ascii i = true) items ->
  all_chars printable_ascii (String.concat ", " items) = true.
Proof.
  induction 1 as [|i items Hi _ IH]; [reflexivity|].
  destruct items as [|j items]; [exact Hi|].
  change (all_chars printable_ascii (i +:+ ", " +:+ String.concat ", " (j :: items)) = true).
  now rewrite !all_chars_append, Hi, IH.
Qed.

(** Whatever the keys and values, [json.dumps] writes characters from the
    space to the tilde only. *)
Lemma dumps_printable (d : list (string * string)) :
  all_chars printable_ascii (Json.dumps d) = true.
Proof.
  unfold Json.dumps. rewrite !all_chars_append, concat_printable; [reflexivity|].
  apply Forall_map, Forall_forall. intros [k v] _. cbn [fst snd].
  now rewrite !all_chars_append, !encode_str_printable.
Qed.

Lemma unescape_cons (c : ascii) (s' : string) :
  unescape (String c s') =
  if Ascii.eqb c Py.backslash then
    match s' with
    | EmptyString => None
    | String e s'' =>
        if Ascii.eqb e Py.dquote then String Py.dquote <$> unescape s''
        else if Ascii.eqb e Py.backslash then String Py.backslash <$> unescape s''
        else if Ascii.eqb e "n" then String "010" <$> unescape s''
        else if Ascii.eqb e "r" then String "013" <$> unescape s''
        else if Ascii.eqb e "t" then String "009" <$> unescape s''
        else if Ascii.eqb e "b" then String "008" <$> unescape s''
        else if Ascii.eqb e "f" then String "012" <$> unescape s''
        else if Ascii.eqb e "u" then
          match s'' with
          | String "0" (String "0" (String h (String l rest))) =>
              match hex_value h, hex_value l with
              | Some a, Some b => String (ascii_of_N (16 * a + b)) <$> unescape rest
              | _, _ => None
              end
          | _ => None
          end
        else None
    end
  else String c <$> unescape s'.
Proof. reflexivity. Qed.

(** What [Json.escape] wrote reads back as the text it was given. *)
Lemma unescape_escape (s : string) : unescape (Json.escape s) = Some s.
Proof.
  induction s as [|c s IH]; [reflexivity|].
  change (Json.escape (String c s)) with (Json.escape_char c +:+ Json.escape s).
  each_char c;
    match goal with
    | |- unescape (?e +:+ _) = _ =>
        let e' := eval vm_compute in e in
        change e with e';
        repeat match goal with
               | |- context [String ?x ?a +:+ ?b] =>
                   change (String x a +:+ b) with (String x (a +:+ b))
               | |- context [EmptyString +:+ ?b] =>
                   change (EmptyString +:+ b) with b
               end
    end;
    rewrite unescape_cons; cbn [Ascii.eqb Bool.eqb Py.backslash Py.dquote];
    rewrite ?IH; try reflexivity.
Qed.

Lemma escape_inj (s1 s2 : string) : Json.escape s1 = Json.escape s2 -> s1 = s2.
Proof.
  intros H. apply (f_equal unescape) in H.
  rewrite !unescape_escape in H. congruence.
Qed.

(** The printed payload: fixed text around the escaped reason. *)
Lemma dumps_block_payload (reason : string) :
  Json.dumps (block_payload reason) =
  ("{" +:+ Json.encode_str "decision" +:+ ": " +:+ Json.encode_str "block" +:+ ", "
       +:+ Json.encode_str "reason" +:+ ": " +:+ String Py.dquote EmptyString)
  +:+ Json.escape reason +:+ (String Py.dquote "}").
Proof.
  assert (Htail : Json.encode_str reason +:+ "}"
                  = String Py.dquote EmptyString +:+ Json.escape reason
                    +:+ String Py.dquote "}").
  { unfold Json.encode_str.
    change (String Py.dquote ((Json.escape reason +:+ String Py.dquote EmptyString) +:+ "}")
            = String Py.dquote (Json.escape reason +:+ String Py.dquote "}")).
    now rewrite append_assoc. }
  unfold Json.dumps, block_payload. cbn [map String.concat fst snd].
  rewrite !append_assoc, Htail. reflexivity.
Qed.

Lemma dumps_block_payload_inj (r1 r2 : string) :
  Json.dumps (block_payload r1) = Json.dumps (block_payload r2) -> r1 = r2.
Proof.
  rewrite !dumps_block_payload. intros H.
  apply String.app_inj in H. apply append_inv_tail in H. now apply escape_inj.
Qed.

(** ** Every run goes one of the ways *)

Lemma run_way (w : World) : way w (run w).
Proof.
  destruct (stdin w) as [v|msg|f] eqn:Hin.
  2:{ rewrite (run_malformed w msg Hin). now apply (way_malformed w msg). }
  2:{ rewrite (run_unreadable w f Hin). now apply (way_unreadable w f). }
  destruct (activation w) eqn:Hact.
  2:{ rewrite (run_inactive w Hact); [now apply (way_inactive w v)|congruence]. }
  assert (Hv : (exists d, v = Py.PyDict d) \/ (forall d, v <> Py.PyDict d))
    by (destruct v; eauto; right; discriminate).
  destruct Hv as [[d ->]|Hv].
  2:{ rewrite (run_not_object w v Hact Hin Hv). now apply way_not_object. }
  destruct (stop_hook_active d) eqn:Hre.
  { rewrite (run_reentered w d Hact Hin Hre). now apply (way_reentered w d). }
  rewrite (run_checked w d Hact Hin Hre).
  destruct (run_command w git_status_cmd 10 no_effects) as [[[c|e]|[ok git_status]] s] eqn:Hrc.
  - exfalso. apply (run_command_no_exit w git_status_cmd 10 no_effects c).
    now rewrite Hrc.
  - now apply (way_raised w d e s).
  - destruct git_status as [|c git_status]; cbn [Py.str_truthy].
    + now apply (way_clean w d ok s).
    + now apply (way_dirty w d ok (String c git_status) s).
Qed.

(** ** More about [run_command] *)

Lemma calls_run_command (w : World) (cmd : list string) (t : Z) (s : Effects) :
  calls (run_command w cmd t s).2 =
  (calls s ++ match getcwd w with
              | inr dir => [{| call_cmd := cmd; call_timeout := t;
                               call_cwd := get_env w "CLAUDE_PROJECT_DIR" dir |}]
              | inl _ => []
              end)%list.
Proof.
  rewrite run_command_cases.
  destruct (getcwd w) as [e|dir]; cbn.
  - rewrite app_nil_r. destruct (os_class e); reflexivity.
  - destruct (spawn w cmd t _) as [rc out| |e|msg|cls msg]; cbn; try reflexivity.
    destruct (os_class e); reflexivity.
Qed.

(** X1: [run_command] never ends the process and lets no
    [TimeoutExpired] and no [FileNotFoundError] through: an [OSError] that
    escapes it is of another class, and was raised by [os.getcwd] or by the
    start of the child process. *)
Theorem X1_run_command_catches_timeout_and_missing_file
    (w : World) (cmd : list string) (t : Z) (s : Effects) (sig : Signal) :
  (run_command w cmd t s).1 = inl sig ->
  (forall c, sig <> SystemExit c)
  /\ (forall cmd' t', sig <> Raised (TimeoutExpired cmd' t'))
  /\ (forall o, sig = Raised (OSError o) ->
       os_class o <> FileNotFoundError /\
       (getcwd w = inl o \/
        exists dir, getcwd w = inr dir /\
                    spawn w cmd t (get_env w "CLAUDE_PROJECT_DIR" dir) = SpawnFailed o)).
Proof.
  rewrite run_command_cases.
  destruct (getcwd w) as [e|dir] eqn:Hg.
  - destruct (os_class e) eqn:Hc; cbn; intros [= <-];
      (split; [discriminate|]); (split; [discriminate|]);
      intros o [= <-]; (split; [congruence|]); now left.
  - cbn. destruct (spawn w cmd t _) as [rc out| |e|msg|cls msg] eqn:Hs; cbn;
      try discriminate.
    + destruct (os_class e) eqn:Hc; cbn; intros [= <-];
        (split; [discriminate|]); (split; [discriminate|]);
        intros o [= <-]; (split; [congruence|]); right; exists dir; now split.
    + intros [= <-]. repeat split; discriminate.
    + intros [= <-]. repeat split; discriminate.
Qed.

Lemma X1_run_command_catches_timeout_and_missing_file_witness :
  let w := world agent_env empty_object (SpawnFailed permission_denied) in
  (run_command w git_status_cmd 10 no_effects).1 = inl (Raised (OSError permission_denied))
  /\ (forall c, Raised (OSError permission_denied) <> SystemExit c)
  /\ (forall cmd' t', Raised (OSError permission_denied) <> Raised (TimeoutExpired cmd' t'))
  /\ (forall o, Raised (OSError permission_denied) = Raised (OSError o) ->
       os_class o <> FileNotFoundError /\
       (getcwd w = inl o \/
        exists dir, getcwd w = inr dir /\
                    spawn w git_status_cmd 10 (get_env w "CLAUDE_PROJECT_DIR" dir)
                    = SpawnFailed o)).
Proof.
  split; [reflexivity|].
  exact (X1_run_command_catches_timeout_and_missing_file
           (world agent_env empty_object (SpawnFailed permission_denied))
           git_status_cmd 10 no_effects (Raised (OSError permission_denied)) eq_refl).
Defined.

(** X2: the success flag [run_command] returns is true exactly when the
    child process was started and exited with status 0; the text is then
    its standard output, stripped. *)
Theorem X2_run_command_success_flag
    (w : World) (cmd : list string) (t : Z) (s : Effects) (text : string) :
  (run_command w cmd t s).1 = inr (true, text) <->
  exists dir out,
    getcwd w = inr dir /\
    spawn w cmd t (get_env w "CLAUDE_PROJECT_DIR" dir) = Completed 0 out /\
    text = Py.strip out.
Proof.
  rewrite run_command_cases. split.
  - destruct (getcwd w) as [e|dir] eqn:Hg.
    + destruct (os_class e); cbn; discriminate.
    + cbn. destruct (spawn w cmd t _) as [rc out| |e|msg|cls msg] eqn:Hs; cbn.
      * intros [= Hrc <-]. apply Z.eqb_eq in Hrc. subst rc.
        exists dir, out. now repeat split.
      * discriminate.
      * destruct (os_class e); cbn; discriminate.
      * discriminate.
      * discriminate.
  - intros (dir & out & -> & Hs & ->). cbn. rewrite Hs. reflexivity.
Qed.

(** X3: [run_command] reports a failure with an empty text in one case
    only: the child process exited with a status other than 0 and printed
    nothing but white space.  A failure it caught as an exception always
    comes with a text. *)
Theorem X3_run_command_failure_with_empty_text
    (w : World) (cmd : list string) (t : Z) (s : Effects) :
  (run_command w cmd t s).1 = inr (false, EmptyString) <->
  exists dir rc out,
    getcwd w = inr dir /\
    spawn w cmd t (get_env w "CLAUDE_PROJECT_DIR" dir) = Completed rc out /\
    rc <> 0 /\ Py.isblank out = true.
Proof.
  rewrite run_command_cases. split.
  - destruct (getcwd w) as [e|dir] eqn:Hg.
    + destruct (os_class e); cbn; discriminate.
    + cbn. destruct (spawn w cmd t _) as [rc out| |e|msg|cls msg] eqn:Hs; cbn.
      * intros [= Hrc Hout]. apply Z.eqb_neq in Hrc. apply strip_empty in Hout.
        exists dir, rc, out. now repeat split.
      * discriminate.
      * destruct (os_class e); cbn; discriminate.
      * discriminate.
      * discriminate.
  - intros (dir & rc & out & -> & Hs & Hrc & Hout). cbn. rewrite Hs.
    apply Z.eqb_neq in Hrc. apply strip_empty in Hout. now rewrite Hrc, Hout.
Qed.

(** X4: from [result.stdout] of a child process that ran to its end,
    which is the child's output as [text=True] hands it over, decoded and
    with CR LF and CR already read as LF, [run_command] takes away white
    space only, and only at the two ends: [result.stdout] is the text
    returned between two runs of white space, and the text returned
    neither starts nor ends with white space. *)
Theorem X4_run_command_text_is_trimmed_output
    (w : World) (cmd : list string) (t : Z) (s : Effects)
    (dir : string) (rc : Z) (out : string) :
  getcwd w = inr dir ->
  spawn w cmd t (get_env w "CLAUDE_PROJECT_DIR" dir) = Completed rc out ->
  exists text pre post,
    (run_command w cmd t s).1 = inr (rc =? 0, text)
    /\ out = pre +:+ text +:+ post
    /\ Py.isblank pre = true /\ Py.isblank post = true
    /\ Py.lstrip text = text /\ Py.rstrip text = text.
Proof.
  intros Hg Hs.
  destruct (strip_split out) as (pre & post & Hout & Hpre & Hpost).
  destruct (strip_fixed out) as [Hl Hr].
  exists (Py.strip out), pre, post.
  rewrite run_command_cases, Hg. cbn. rewrite Hs. cbn. now repeat split.
Qed.

Lemma X4_run_command_text_is_trimmed_output_witness :
  let out := " M a.txt" +:+ String Py.nl (" M b.txt" +:+ String Py.nl EmptyString) in
  let w := world agent_env empty_object (Completed 0 out) in
  exists text pre post,
    (run_command w git_status_cmd 10 no_effects).1 = inr (0 =? 0, text)
    /\ out = pre +:+ text +:+ post
    /\ Py.isblank pre = true /\ Py.isblank post = true
    /\ Py.lstrip text = text /\ Py.rstrip text = text.
Proof.
  exact (X4_run_command_text_is_trimmed_output
           (world agent_env empty_object
              (Completed 0 (" M a.txt" +:+ String Py.nl
                              (" M b.txt" +:+ String Py.nl EmptyString))))
           git_status_cmd 10 no_effects "/repo" 0 _ eq_refl eq_refl).
Defined.

(** ** More about [main] *)

Lemma queries_checked (w : World) (d : gmap string Py.pyval) :
  activation w = true ->
  stdin w = JSONDocument (Py.PyDict d) ->
  stop_hook_active d = false ->
  queries (run w) =
  match getcwd w with
  | inr dir => [git_call (get_env w "CLAUDE_PROJECT_DIR" dir)]
  | inl _ => []
  end.
Proof.
  intros Hact Hin Hre. rewrite (run_checked w d Hact Hin Hre).
  pose proof (calls_run_command w git_status_cmd 10 no_effects) as Hc.
  destruct (run_command w git_status_cmd 10 no_effects) as [[[c|e]|[ok git_status]] s];
    cbn in Hc; try (cbn; rewrite Hc; reflexivity).
  destruct (Py.str_truthy git_status); cbn; rewrite Hc; reflexivity.
Qed.

Lemma status_query_of_run_command (w : World) (r : Signal + bool * string) (s : Effects) :
  run_command w git_status_cmd 10 no_effects = (r, s) -> status_query w = r.
Proof. unfold status_query. now intros ->. Qed.

Lemma dumps_nonempty (d : list (string * string)) (tail : string) :
  Json.dumps d +:+ tail <> EmptyString.
Proof. discriminate. Qed.

(** X5: [os.getcwd()] is called before the variable [CLAUDE_PROJECT_DIR]
    is looked at.  When the directory the hook runs in is gone, [git] is
    never started, whatever [CLAUDE_PROJECT_DIR] says, and the activated
    gate blocks with the text of the [FileNotFoundError] in the place of
    the status. *)
Theorem X5_missing_working_directory_blocks
    (w : World) (d : gmap string Py.pyval) (e : os_error) :
  activation w = true ->
  stdin w = JSONDocument (Py.PyDict d) ->
  stop_hook_active d = false ->
  getcwd w = inl e ->
  os_class e = FileNotFoundError ->
  blocks (run w) (prompt (str_exn (OSError e)) (session_name w))
  /\ queries (run w) = [].
Proof.
  intros Hact Hin Hre Hg Hc. split.
  - apply (checked_dirty w d Hact Hin Hre false).
    + now rewrite status_query_cases, Hg, Hc.
    + discriminate.
  - now rewrite (queries_checked w d Hact Hin Hre), Hg.
Qed.

Lemma X5_missing_working_directory_blocks_witness :
  let w := {| environ := <[ "CLAUDE_PROJECT_DIR" := "/srv/project" ]> agent_env;
              stdin := empty_object; getcwd := inl directory_gone;
              spawn := fun _ _ _ => Completed 0 EmptyString |} in
  blocks (run w) (prompt "[Errno 2] No such file or directory" "default")
  /\ queries (run w) = [].
Proof.
  exact (X5_missing_working_directory_blocks
           {| environ := <[ "CLAUDE_PROJECT_DIR" := "/srv/project" ]> agent_env;
              stdin := empty_object; getcwd := inl directory_gone;
              spawn := fun _ _ _ => Completed 0 EmptyString |}
           ∅ directory_gone eq_refl eq_refl eq_refl eq_refl eq_refl).
Defined.


(** X8: the gate blocks exactly when it is activated, the payload is an
    object that reports no earlier firing, and [run_command] returns a text
    that is not empty; the reason printed is the prompt built from that
    text and the session name, and no other. *)
Theorem X8_run_blocks_iff (w : World) (reason : string) :
  blocks (run w) reason <->
  activation w = true /\
  exists d ok text,
    stdin w = JSONDocument (Py.PyDict d) /\ stop_hook_active d = false /\
    status_query w = inr (ok, text) /\ text <> EmptyString /\
    reason = prompt text (session_name w).
Proof.
  split.
  - pose proof (run_way w) as H. remember (run w) as p eqn:Hp. clear Hp.
    destruct H as [msg|f|v|v|d|d ok s|d ok git_status s Hin Hact Hre Hrc Hne|d e' s];
      intros (Hc & Ht & Ho); cbn in Hc, Ht, Ho; try discriminate.
    apply append_inv_tail, dumps_block_payload_inj in Ho.
    split; [assumption|]. exists d, ok, git_status.
    split; [assumption|]. split; [assumption|].
    split; [exact (status_query_of_run_command w _ s Hrc)|].
    split; [assumption|]. now symmetry.
  - intros (Hact & d & ok & text & Hin & Hre & Hq & Hne & ->).
    exact (checked_dirty w d Hact Hin Hre ok text Hq Hne).
Qed.

(** X9: the gate allows exactly when [json.load] rejects the payload with
    [JSONDecodeError]; or it decodes the payload and the gate is not
    activated; or the payload object reports an earlier firing; or
    [run_command] returns an empty text. *)
Theorem X9_run_allows_iff (w : World) :
  allows (run w) <->
  (exists msg, stdin w = Malformed msg)
  \/ (activation w = false /\ exists v, stdin w = JSONDocument v)
  \/ exists d, stdin w = JSONDocument (Py.PyDict d) /\
               (stop_hook_active d = true \/
                exists ok, status_query w = inr (ok, EmptyString)).
Proof.
  split.
  - pose proof (run_way w) as H. remember (run w) as p eqn:Hp. clear Hp.
    destruct H as [msg|f|v|v|d|d ok s Hin Hact Hre Hrc|d ok git_status s|d e' s];
      intros (Hc & Ho & Ht); cbn in Hc, Ht, Ho; try discriminate.
    + left. now exists msg.
    + right; left. split; [assumption|]. now exists v.
    + right; right. exists d. split; [assumption|now left].
    + right; right. exists d. split; [assumption|]. right. exists ok.
      exact (status_query_of_run_command w _ s Hrc).
  - intros [[msg Hin]|[(Hact & v & Hin)|(d & Hin & Hd)]].
    + rewrite (run_malformed w msg Hin). repeat split.
    + rewrite (run_inactive w Hact); [repeat split|congruence].
    + destruct (activation w) eqn:Hact;
        [|rewrite (run_inactive w Hact); [repeat split|congruence]].
      destruct Hd as [Hre|[ok Hq]].
      * rewrite (run_reentered w d Hact Hin Hre). repeat split.
      * destruct (stop_hook_active d) eqn:Hre.
        -- rewrite (run_reentered w d Hact Hin Hre). repeat split.
        -- exact (checked_clean w d Hact Hin Hre ok Hq).
Qed.


(** X11: of the payload object only the truth value of [stop_hook_active]
    counts, taken as Python takes it in an [if]: the other keys, and which
    true or false value the key holds, change nothing in the run. *)
Theorem X11_payload_matters_through_flag_only
    (w : World) (d1 d2 : gmap string Py.pyval) :
  stdin w = JSONDocument (Py.PyDict d1) ->
  stop_hook_active d1 = stop_hook_active d2 ->
  run (with_stdin w (JSONDocument (Py.PyDict d2))) = run w.
Proof.
  intros Hin Heq.
  assert (Hact' : activation (with_stdin w (JSONDocument (Py.PyDict d2))) = activation w)
    by reflexivity.
  destruct (activation w) eqn:Hact.
  2:{ rewrite (run_inactive w Hact), (run_inactive _ Hact');
        [reflexivity|discriminate|congruence]. }
  destruct (stop_hook_active d1) eqn:Hre.
  - rewrite (run_reentered w d1 Hact Hin Hre).
    now rewrite (run_reentered _ d2 Hact' eq_refl).
  - rewrite (run_checked w d1 Hact Hin Hre).
    rewrite (run_checked _ d2 Hact' eq_refl); [reflexivity|congruence].
Qed.

Lemma X11_payload_matters_through_flag_only_witness :
  let d1 : gmap string Py.pyval :=
    {[ "stop_hook_active" := Py.PyStr "false"; "session_id" := Py.PyInt 7 ]} in
  let d2 : gmap string Py.pyval := {[ "stop_hook_active" := Py.PyBool true ]} in
  let w := world agent_env (JSONDocument (Py.PyDict d1)) (Completed 0 "M file.txt") in
  stop_hook_active d1 = stop_hook_active d2
  /\ run (with_stdin w (JSONDocument (Py.PyDict d2))) = run w.
Proof.
  split; [reflexivity|].
  exact (X11_payload_matters_through_flag_only
           (world agent_env
              (JSONDocument
                 (Py.PyDict {[ "stop_hook_active" := Py.PyStr "false";
                               "session_id" := Py.PyInt 7 ]}))
              (Completed 0 "M file.txt"))
           {[ "stop_hook_active" := Py.PyStr "false"; "session_id" := Py.PyInt 7 ]}
           {[ "stop_hook_active" := Py.PyBool true ]} eq_refl eq_refl).
Defined.

(** X12: what the process prints is nothing at all, or one line: text of
    characters from the space to the tilde, closed by a single newline.
    Whatever [git] printed and whatever the session is called, no raw
    newline, control character or character beyond ASCII gets into the
    line. *)
Theorem X12_output_is_one_ascii_line (w : World) :
  output (run w) = EmptyString \/
  exists line,
    output (run w) = line +:+ String Py.nl EmptyString /\
    all_chars printable_ascii line = true.
Proof.
  pose proof (run_way w) as H. remember (run w) as p eqn:Hp. clear Hp.
  destruct H as [msg|f|v|v|d|d ok s|d ok git_status s|d e' s];
    try (left; reflexivity).
  right. eexists. split; [reflexivity|]. apply dumps_printable.
Qed.

(** X13: runs that block for different reasons print different lines:
    the escaping loses nothing of the reason, so that the line read back
    gives the reason, character for character. *)
Theorem X13_different_reasons_print_different_lines
    (w1 w2 : World) (r1 r2 : string) :
  blocks (run w1) r1 ->
  blocks (run w2) r2 ->
  r1 <> r2 ->
  output (run w1) <> output (run w2).
Proof.
  intros (_ & _ & H1) (_ & _ & H2) Hne Hout. apply Hne.
  rewrite H1, H2 in Hout.
  now apply append_inv_tail, dumps_block_payload_inj in Hout.
Qed.

Lemma X13_different_reasons_print_different_lines_witness :
  let w1 := world alpha_env empty_object
              (Completed 0 ("M a" +:+ String Py.nl "b.txt")) in
  let w2 := world alpha_env empty_object (Completed 0 "M a\nb.txt") in
  (blocks (run w1) (prompt ("M a" +:+ String Py.nl "b.txt") "alpha")
   /\ blocks (run w2) (prompt "M a\nb.txt" "alpha")
   /\ prompt ("M a" +:+ String Py.nl "b.txt") "alpha" <> prompt "M a\nb.txt" "alpha")
  /\ output (run w1) <> output (run w2).
Proof.
  assert (Hne : prompt ("M a" +:+ String Py.nl "b.txt") "alpha"
                <> prompt "M a\nb.txt" "alpha") by (vm_compute; discriminate).
  split; [split; [repeat split|split; [repeat split|exact Hne]]|].
  apply (X13_different_reasons_print_different_lines
           (world alpha_env empty_object (Completed 0 ("M a" +:+ String Py.nl "b.txt")))
           (world alpha_env empty_object (Completed 0 "M a\nb.txt"))
           (prompt ("M a" +:+ String Py.nl "b.txt") "alpha")
           (prompt "M a\nb.txt" "alpha"));
    [repeat split|repeat split|exact Hne].
Defined.
